(** * RCQA task adapters ([lm_eval/tasks/ja/rcqa.py])

    A shallow embedding of the four RCQA task classes of the evaluation
    harness: prompt formatting ([doc_to_text]), target extraction
    ([doc_to_target]), request construction ([construct_requests]),
    per-example result packaging ([process_results]), aggregation
    ([_squad_agg], [aggregation], [higher_is_better]), the split accessors
    ([training_docs], [test_docs]) and the task registry
    ([construct_tasks]).

    Conventions of the embedding.
    - A Python [str] is a Rocq [string] holding its UTF-8 bytes.  The
      module only concatenates, joins and compares strings, and UTF-8 is a
      monoid morphism for concatenation that preserves equality, the
      substring relation and the suffix relation.
    - A Python [int] is a [Z]; the result of [len] is a [nat].
    - A dataset row, a context document, a prediction and a reference are
      dictionaries with a fixed set of string keys; they are records whose
      fields are named after the keys.
    - A raised exception is the [Raise] case of [result].
    - [self] is a record of the attributes the methods read ([SEP],
      [TOP_K_LIMIT], [REMOVE_IDS], [tokenizer], [dataset]) together with the
      class [cls] that selects the method bodies; [new] builds the instance
      carrying a class's own attribute values. *)

From Stdlib Require Import String Ascii List ZArith Bool Arith Lia.
Import ListNotations.
Local Open Scope string_scope.

(** ** Python primitives *)

Module Py.

(** The exceptions this module can raise.  [AssertionError] keeps the
    literal part of the f-string message and the interpolated list as
    data (its [repr] is not rendered). *)
Inductive exn : Type :=
| AssertionError (msg : string) (interpolated : list string)
| ValueError (msg : string)
| IndexError (msg : string)
| KeyError (key : string).

Inductive result (A : Type) : Type :=
| Ok (a : A)
| Raise (e : exn).
Arguments Ok {A} a.
Arguments Raise {A} e.

Definition bind {A B : Type} (m : result A) (k : A -> result B) : result B :=
  match m with
  | Ok a => k a
  | Raise e => Raise e
  end.

(** [assert cond, msg] *)
Definition assert (cond : bool) (e : exn) : result unit :=
  if cond then Ok tt else Raise e.

(** The newline character, Python's ["\n"]. *)
Definition nl : string := String "010"%char EmptyString.

(** [sep.join(parts)] *)
Definition join (sep : string) (parts : list string) : string :=
  String.concat sep parts.

(** [l[:k]]: the first [k] elements, and for a negative [k] all but the
    last [-k] elements. *)
Definition slice_to {A : Type} (k : Z) (l : list A) : list A :=
  if (0 <=? k)%Z then firstn (Z.to_nat k) l
  else firstn (Z.to_nat (Z.of_nat (List.length l) + k)) l.

(** [l[0]] *)
Definition getitem0 {A : Type} (l : list A) : result A :=
  match l with
  | x :: _ => Ok x
  | [] => Raise (IndexError "list index out of range")
  end.

(** [x in l] / [x not in l] on a list of strings. *)
Definition str_in (x : string) (l : list string) : bool :=
  existsb (String.eqb x) l.

(** [d[key]] on a dictionary kept as an association list. *)
Fixpoint getitem {V : Type} (d : list (string * V)) (key : string) : result V :=
  match d with
  | [] => Raise (KeyError key)
  | (k, v) :: d' => if String.eqb k key then Ok v else getitem d' key
  end.

(** [s.lower()] on the ASCII letters.  Every other byte is kept, which
    agrees with Python on whether the result equals an ASCII word. *)
Definition lower_ascii (c : ascii) : ascii :=
  let n := nat_of_ascii c in
  if (65 <=? n)%nat && (n <=? 90)%nat then ascii_of_nat (n + 32) else c.

Fixpoint lower (s : string) : string :=
  match s with
  | EmptyString => EmptyString
  | String c s' => String (lower_ascii c) (lower s')
  end.

(** [os.getenv(name, default)] over an environment. *)
Definition getenv (environ : string -> option string) (name default : string) : string :=
  match environ name with
  | Some v => v
  | None => default
  end.

(** One tuple produced by [zip( *item )] when [item] is a list of pairs:
    the tuple of first components or the tuple of second components. *)
Inductive column (A B : Type) : Type :=
| Firsts (xs : list A)
| Seconds (ys : list B).
Arguments Firsts {A B} xs.
Arguments Seconds {A B} ys.

(** [zip( *item )] for a list of pairs.  Each pair is one argument of
    [zip]; with at least one pair the result has two tuples, and with no
    argument at all [zip()] is exhausted at once and yields no tuple. *)
Definition zip_star {A B : Type} (item : list (A * B)) : list (column A B) :=
  match item with
  | [] => []
  | _ :: _ => [Firsts (map fst item); Seconds (map snd item)]
  end.

(** [a, b = columns]: unpacking into exactly two targets.  [zip_star]
    yields either no tuple or the tuple of first components followed by the
    tuple of second components, which are the cases told apart here. *)
Definition unpack2 {A B : Type} (columns : list (column A B)) : result (list A * list B) :=
  match columns with
  | [] => Raise (ValueError "not enough values to unpack (expected 2, got 0)")
  | [_] => Raise (ValueError "not enough values to unpack (expected 2, got 1)")
  | [Firsts xs; Seconds ys] => Ok (xs, ys)
  | _ => Raise (ValueError "too many values to unpack (expected 2)")
  end.

End Py.

Import Py.

Notation "'do' x <- m ; k" := (bind m (fun x => k))
  (at level 10, x pattern, m at level 100, k at level 200).

(** ** Data model *)

(** One context document of a row: [document["title"]], [document["text"]]. *)
Record Document : Type := mkDocument {
  title : string;
  text : string
}.

(** One dataset row: [doc["id"]], [doc["qid"]], [doc["question"]],
    [doc["answer"]], [doc["documents"]]. *)
Record Doc : Type := mkDoc {
  doc_id : string;
  qid : string;
  question : string;
  answer : string;
  documents : list Document
}.

Definition set_documents (doc : Doc) (ds : list Document) : Doc :=
  {| doc_id := doc_id doc; qid := qid doc; question := question doc;
     answer := answer doc; documents := ds |}.

(** [self.dataset]: the splits the task reads. *)
Record DatasetDict : Type := mkDatasetDict {
  train : list Doc;
  test : list Doc
}.

(** What [inspect.getfullargspec] returns about a callable. *)
Record FullArgSpec : Type := mkFullArgSpec {
  args : list string;
  varargs : option string;
  varkw : option string;
  kwonlyargs : list string
}.

(** The tokenizer's [encode] method: its signature and its behaviour on a
    text and a dictionary of keyword arguments. *)
Record EncodeFn : Type := mkEncodeFn {
  getfullargspec : FullArgSpec;
  call : string -> list (string * bool) -> list Z
}.

(** [self.tokenizer]; [encode] is [None] when the object has no such
    attribute. *)
Record Tokenizer : Type := mkTokenizer {
  encode : option EncodeFn
}.

Definition hasattr_encode (t : Tokenizer) : bool :=
  match encode t with
  | Some _ => true
  | None => false
  end.

(** The request built by [rf.greedy_until]: the request type and the
    arguments, the third of which is optional. *)
Record Request : Type := mkRequest {
  request_type : string;
  ctx_arg : string;
  until : list string;
  max_length : option nat
}.

Definition rf_greedy_until (ctx : string) (stop : list string) (max_num_tokens : option nat) : Request :=
  {| request_type := "greedy_until"; ctx_arg := ctx; until := stop;
     max_length := max_num_tokens |}.

(** [{"id": ..., "prediction_text": ...}] *)
Record Prediction : Type := mkPrediction {
  pred_id : string;
  prediction_text : string
}.

(** [{"text": [...], "answer_start": [...]}] *)
Record Gold : Type := mkGold {
  gold_text : list string;
  answer_start : list Z
}.

(** [{"id": ..., "answers": gold}] *)
Record Reference : Type := mkReference {
  ref_id : string;
  answers : Gold
}.

(** ** The task classes *)

Inductive version : Type :=
| RCQA
| RCQAWithFintanPrompt
| RCQAWithJAAlpacaPrompt
| RCQAWithRinnaInstructionSFT.

Definition VERSIONS : list version :=
  [RCQA; RCQAWithFintanPrompt; RCQAWithJAAlpacaPrompt; RCQAWithRinnaInstructionSFT].

Definition _TOP_K_LIMIT : Z := 10.

Record Task : Type := mkTask {
  cls : version;
  SEP : string;
  TOP_K_LIMIT : Z;
  REMOVE_IDS : list string;
  tokenizer : Tokenizer;
  dataset : DatasetDict
}.

(** The class attribute [SEP]: [RCQAWithJAAlpacaPrompt] inherits it from
    [RCQA], [RCQAWithRinnaInstructionSFT] overrides it. *)
Definition class_SEP (v : version) : string :=
  match v with
  | RCQA => nl
  | RCQAWithFintanPrompt => nl
  | RCQAWithJAAlpacaPrompt => nl
  | RCQAWithRinnaInstructionSFT => "<NL>"
  end.

Definition class_TOP_K_LIMIT (v : version) : Z :=
  match v with
  | RCQA => _TOP_K_LIMIT
  | RCQAWithFintanPrompt => _TOP_K_LIMIT
  | RCQAWithJAAlpacaPrompt => _TOP_K_LIMIT
  | RCQAWithRinnaInstructionSFT => _TOP_K_LIMIT
  end.

(** [REMOVE_IDS = []] in [RCQA], inherited by the other classes. *)
Definition class_REMOVE_IDS (v : version) : list string := [].

(** [RCQAWithJAAlpacaPrompt.INSTRUCTION] *)
Definition INSTRUCTION : string :=
  "与えられた文脈から、質問に対する答えを抜き出してください。".

(** An instance of class [v]: every attribute resolves to the class's. *)
Definition new (v : version) (tok : Tokenizer) (ds : DatasetDict) : Task :=
  {| cls := v; SEP := class_SEP v; TOP_K_LIMIT := class_TOP_K_LIMIT v;
     REMOVE_IDS := class_REMOVE_IDS v; tokenizer := tok; dataset := ds |}.

(** [DYNAMIC_MAX_LENGTH = os.getenv("DYNAMIC_MAX_LENGTH", "true").lower()] *)
Definition DYNAMIC_MAX_LENGTH (environ : string -> option string) : string :=
  lower (getenv environ "DYNAMIC_MAX_LENGTH" "true").

(** ** Methods *)

Definition training_docs (self : Task) : list Doc :=
  train (dataset self).

Definition test_docs (self : Task) : list Doc :=
  let dataset := test (dataset self) in
  if (0 <? List.length (REMOVE_IDS self))%nat
  then filter (fun item => negb (str_in (doc_id item) (REMOVE_IDS self))) dataset
  else dataset.

(** [doc["documents"][:self.TOP_K_LIMIT]] *)
Definition topk_documents (self : Task) (doc : Doc) : list Document :=
  slice_to (TOP_K_LIMIT self) (documents doc).

Definition doc_to_text (self : Task) (doc : Doc) : string :=
  match cls self with
  | RCQA =>
      let context :=
        join (SEP self)
          (map (fun document =>
                  "[題名]:" ++ title document ++ SEP self ++ "[問題]:" ++ text document)
               (topk_documents self doc)) in
      context ++ SEP self ++ "[質問]:" ++ question doc ++ SEP self ++ "[答え]:"
  | RCQAWithFintanPrompt =>
      let context := join (SEP self) (map text (topk_documents self doc)) in
      "文章:" ++ context ++ SEP self ++ "質問:" ++ question doc ++ SEP self ++ "回答:"
  | RCQAWithJAAlpacaPrompt =>
      let context := join (SEP self) (map text (topk_documents self doc)) in
      let input_text := "文脈：" ++ context ++ nl ++ "質問：" ++ question doc in
      "### 指示:" ++ nl ++ INSTRUCTION ++ nl ++ nl ++ "### 入力:" ++ nl
        ++ input_text ++ nl ++ nl ++ "### 応答:" ++ nl
  | RCQAWithRinnaInstructionSFT =>
      let context := join (SEP self) (map text (topk_documents self doc)) in
      let input_text := "文脈：" ++ context ++ SEP self ++ "質問：" ++ question doc in
      "ユーザー: " ++ input_text ++ SEP self ++ "システム: "
  end.

Definition doc_to_target (self : Task) (doc : Doc) : string :=
  let answer := answer doc in
  answer.

Definition construct_requests (environ : string -> option string)
    (self : Task) (doc : Doc) (ctx : string) : Request :=
  if (DYNAMIC_MAX_LENGTH environ =? "false") || negb (hasattr_encode (tokenizer self))
  then rf_greedy_until ctx [SEP self] None
  else
    match encode (tokenizer self) with
    | None => rf_greedy_until ctx [SEP self] None (* excluded by the test above *)
    | Some encode_fn =>
        let encode_params :=
          if str_in "add_special_tokens" (args (getfullargspec encode_fn))
          then [("add_special_tokens", false)]
          else [] in
        let max_num_tokens := List.length (call encode_fn (answer doc) encode_params) in
        rf_greedy_until ctx [SEP self] (Some max_num_tokens)
    end.

Definition process_results (self : Task) (doc : Doc) (results : list string)
    : result (list (string * (Prediction * Reference))) :=
  do _ <- assert (List.length results =? 1)%nat
            (AssertionError "results should be a list with 1 str element, but is " results);
  do continuation <- getitem0 results;
  let predictions := {| pred_id := qid doc; prediction_text := continuation |} in
  let gold := {| gold_text := [answer doc]; answer_start := [(-1)%Z] |} in
  let references := {| ref_id := qid doc; answers := gold |} in
  Ok [("exact_match", (predictions, references)); ("f1", (predictions, references))].

Section Aggregation.

(** The external metric: [self.jasqaud_metric.compute], returning a
    dictionary of scores or raising. *)
Variable score : Type.
Variable jasqaud_metric_compute :
  list Prediction -> list Reference -> result (list (string * score)).

Definition _squad_metric (predictions : list Prediction) (references : list Reference)
    : result (list (string * score)) :=
  jasqaud_metric_compute predictions references.

Definition _squad_agg (key : string) (item : list (Prediction * Reference)) : result score :=
  do (predictions, references) <- unpack2 (zip_star item);
  do scores <- _squad_metric predictions references;
  getitem scores key.

End Aggregation.

(** ** Predicates used by the statements *)

(** [sub in s] on strings: [sub] occurs in [s] as a contiguous piece. *)
Definition contains (s sub : string) : Prop :=
  exists pre post, s = pre ++ sub ++ post.

(** [s.endswith(suffix)] *)
Definition endswith (s suffix : string) : Prop :=
  exists pre, s = pre ++ suffix.

(** [xs] is [ys] with some elements removed, the others kept in order. *)
Inductive subseq {A : Type} : list A -> list A -> Prop :=
| subseq_nil : subseq [] []
| subseq_skip (x : A) (xs ys : list A) : subseq xs ys -> subseq xs (x :: ys)
| subseq_keep (x : A) (xs ys : list A) : subseq xs ys -> subseq (x :: xs) (x :: ys).

(** The text each template puts last, after which the model completes. *)
Definition answer_cue (v : version) : string :=
  match v with
  | RCQA => "[答え]:"
  | RCQAWithFintanPrompt => "回答:"
  | RCQAWithJAAlpacaPrompt => "### 応答:" ++ nl
  | RCQAWithRinnaInstructionSFT => "システム: "
  end.

(** ** Sample values *)

Definition no_tokenizer : Tokenizer := {| encode := None |}.

Definition empty_dataset : DatasetDict := {| train := []; test := [] |}.

Definition no_environ : string -> option string := fun _ => None.

Definition environ_with (value : string) : string -> option string :=
  fun name => if name =? "DYNAMIC_MAX_LENGTH" then Some value else None.

(** A byte-level tokenizer: one token per byte, framed by the markers 1
    and 2 unless [add_special_tokens=False] is passed. *)
Definition byte_tokens (s : string) : list Z :=
  map (fun c => Z.of_nat (nat_of_ascii c)) (list_ascii_of_string s).

Definition framing_call (s : string) (kwargs : list (string * bool)) : list Z :=
  match getitem kwargs "add_special_tokens" with
  | Ok false => byte_tokens s
  | _ => (1 :: byte_tokens s ++ [2])%Z
  end.

(** [def encode(self, text, add_special_tokens=True)] *)
Definition encode_positional : EncodeFn :=
  {| getfullargspec :=
       {| args := ["self"; "text"; "add_special_tokens"]; varargs := None;
          varkw := None; kwonlyargs := [] |};
     call := framing_call |}.

(** [def encode(self, text)] *)
Definition encode_plain : EncodeFn :=
  {| getfullargspec :=
       {| args := ["self"; "text"]; varargs := None; varkw := None;
          kwonlyargs := [] |};
     call := framing_call |}.

(** A metric that never raises: it scores every input, the empty one too. *)
Definition steady_metric (predictions : list Prediction) (references : list Reference)
    : result (list (string * Z)) :=
  Ok [("exact_match", 0%Z); ("f1", 0%Z)].

Definition capital_of_japan (q : string) : Doc :=
  {| doc_id := "0"; qid := "QA0"; question := q; answer := "東京";
     documents := [ {| title := "日本の首都"; text := "東京は日本の首都です。" |} ] |}.

(** A row with twelve context documents. *)
Definition twelve_documents : Doc :=
  {| doc_id := "1"; qid := "QA1"; question := "首都はどこですか"; answer := "東京";
     documents :=
       map (fun n => {| title := "題" ++ n; text := "文" ++ n |})
           ["1"; "2"; "3"; "4"; "5"; "6"; "7"; "8"; "9"; "10"; "11"; "12"] |}.

Definition excluded_row : Doc :=
  {| doc_id := "a"; qid := "QA2"; question := "質問"; answer := "答え"; documents := [] |}.

Definition kept_row : Doc :=
  {| doc_id := "b"; qid := "QA3"; question := "質問"; answer := "答え"; documents := [] |}.

(** A task whose exclusion list names [excluded_row], which both splits hold. *)
Definition excluding_task : Task :=
  {| cls := RCQA; SEP := nl; TOP_K_LIMIT := _TOP_K_LIMIT; REMOVE_IDS := ["a"];
     tokenizer := no_tokenizer;
     dataset := {| train := [excluded_row; kept_row]; test := [excluded_row; kept_row] |} |}.

(** ** Metric declarations and the task registry *)

(** [d[key] = value]: a key already bound is rebound where it stands, a
    new key is added last. *)
Fixpoint setitem {V : Type} (d : list (string * V)) (key : string) (value : V)
    : list (string * V) :=
  match d with
  | [] => [(key, value)]
  | (k, v) :: d' =>
      if String.eqb k key then (k, value) :: d' else (k, v) :: setitem d' key value
  end.

(** [aggregation]: each metric name bound to [partial(self._squad_agg, name)]. *)
Definition aggregation (score : Type)
    (compute : list Prediction -> list Reference -> result (list (string * score)))
    : list (string * (list (Prediction * Reference) -> result score)) :=
  [ ("exact_match", _squad_agg score compute "exact_match");
    ("f1", _squad_agg score compute "f1") ].

Definition higher_is_better : list (string * bool) :=
  [("exact_match", true); ("f1", true)].

(** [VERSION = 1.0], defined in [RCQA] and inherited.  The float literal
    is kept as the text an f-string gives it. *)
Definition VERSION (v : version) : string := "1.0".

(** [PROMPT_VERSION], one float literal per class, kept as the text an
    f-string gives it. *)
Definition PROMPT_VERSION (v : version) : string :=
  match v with
  | RCQA => "0.1"
  | RCQAWithFintanPrompt => "0.2"
  | RCQAWithJAAlpacaPrompt => "0.3"
  | RCQAWithRinnaInstructionSFT => "0.4"
  end.

Definition construct_tasks : list (string * version) :=
  fold_left
    (fun tasks version_class =>
       setitem tasks
         ("rcqa-" ++ VERSION version_class ++ "-" ++ PROMPT_VERSION version_class)
         version_class)
    VERSIONS [].

(** ** Further predicates and sample values *)

(** The string holds a newline character. *)
Fixpoint has_newline (s : string) : bool :=
  match s with
  | EmptyString => false
  | String c s' => Ascii.eqb c "010"%char || has_newline s'
  end.

(** The five-letter word "false" in any mix of upper and lower case. *)
Definition spells_false (v : string) : bool :=
  match v with
  | String c1 (String c2 (String c3 (String c4 (String c5 EmptyString)))) =>
      (Ascii.eqb c1 "f" || Ascii.eqb c1 "F")
      && (Ascii.eqb c2 "a" || Ascii.eqb c2 "A")
      && (Ascii.eqb c3 "l" || Ascii.eqb c3 "L")
      && (Ascii.eqb c4 "s" || Ascii.eqb c4 "S")
      && (Ascii.eqb c5 "e" || Ascii.eqb c5 "E")
  | _ => false
  end.

(** [capital_of_japan] with another gold answer and other identifiers. *)
Definition capital_of_japan_relabelled (q : string) : Doc :=
  {| doc_id := "7"; qid := "QA7"; question := q; answer := "京都";
     documents := [ {| title := "日本の首都"; text := "東京は日本の首都です。" |} ] |}.

Definition two_documents : Doc :=
  {| doc_id := "2"; qid := "QA4"; question := "首都はどこですか"; answer := "東京";
     documents := [ {| title := "題1"; text := "文1" |}; {| title := "題2"; text := "文2" |} ] |}.

Definition no_documents : Doc :=
  {| doc_id := "3"; qid := "QA5"; question := "首都はどこですか"; answer := "東京";
     documents := [] |}.

(** Two tasks over one test split whose exclusion lists hold the same ids,
    in another order and with a repetition. *)
Definition three_rows : DatasetDict :=
  {| train := []; test := [excluded_row; kept_row; excluded_row] |}.

Definition excluding_ab : Task :=
  {| cls := RCQA; SEP := nl; TOP_K_LIMIT := _TOP_K_LIMIT; REMOVE_IDS := ["a"; "c"];
     tokenizer := no_tokenizer; dataset := three_rows |}.

Definition excluding_ba : Task :=
  {| cls := RCQA; SEP := nl; TOP_K_LIMIT := _TOP_K_LIMIT; REMOVE_IDS := ["c"; "a"; "c"];
     tokenizer := no_tokenizer; dataset := three_rows |}.

Definition excluding_none_present : Task :=
  {| cls := RCQA; SEP := nl; TOP_K_LIMIT := _TOP_K_LIMIT; REMOVE_IDS := ["z"];
     tokenizer := no_tokenizer; dataset := three_rows |}.

(** A metric whose result has no "f1" entry. *)
Definition exact_match_only (predictions : list Prediction) (references : list Reference)
    : result (list (string * Z)) :=
  Ok [("exact_match", 0%Z)].

(** A metric that raises on every input. *)
Definition failing_metric (predictions : list Prediction) (references : list Reference)
    : result (list (string * Z)) :=
  Raise (ValueError "metric failed").

(** A signature accepts the keyword argument [name] when it names a
    parameter that can be passed by keyword, among [args] or among
    [kwonlyargs], or when it collects further keywords in a [**kwargs]
    parameter. *)
Definition accepts_keyword (spec : FullArgSpec) (name : string) : bool :=
  str_in name (args spec) || str_in name (kwonlyargs spec)
  || match varkw spec with Some _ => true | None => false end.

(** [def encode(self, text, *, add_special_tokens=True)] *)
Definition encode_keyword_only : EncodeFn :=
  {| getfullargspec :=
       {| args := ["self"; "text"]; varargs := None; varkw := None;
          kwonlyargs := ["add_special_tokens"] |};
     call := framing_call |}.

(** [def encode(self, text, **kwargs)] *)
Definition encode_with_kwargs : EncodeFn :=
  {| getfullargspec :=
       {| args := ["self"; "text"]; varargs := None; varkw := Some "kwargs";
          kwonlyargs := [] |};
     call := framing_call |}.

(** * Properties *)

(** ** Strings *)

Lemma append_assoc (a b c : string) : (a ++ b) ++ c = a ++ b ++ c.
Proof.
  induction a as [|ch a IH]; simpl.
  - reflexivity.
  - now rewrite IH.
Qed.

Lemma append_empty_r (a : string) : a ++ "" = a.
Proof.
  induction a as [|ch a IH]; simpl; [reflexivity | now rewrite IH].
Qed.

Lemma contains_head (sub post : string) : contains (sub ++ post) sub.
Proof. exists "", post. reflexivity. Qed.

Lemma contains_self (sub : string) : contains sub sub.
Proof. exists "", "". simpl. now rewrite append_empty_r. Qed.

Lemma contains_app_r (p s sub : string) : contains s sub -> contains (p ++ s) sub.
Proof.
  intros (pre & post & ->). exists (p ++ pre), post.
  now rewrite append_assoc.
Qed.

Lemma contains_app_l (s p sub : string) : contains s sub -> contains (s ++ p) sub.
Proof.
  intros (pre & post & ->). exists pre, (post ++ p).
  now rewrite !append_assoc.
Qed.

Lemma endswith_self (suffix : string) : endswith suffix suffix.
Proof. exists "". reflexivity. Qed.

Lemma endswith_app_r (p s suffix : string) : endswith s suffix -> endswith (p ++ s) suffix.
Proof.
  intros (pre & ->). exists (p ++ pre). now rewrite append_assoc.
Qed.

Create HintDb pieces.
#[local] Hint Resolve contains_head contains_self contains_app_r contains_app_l
  endswith_self endswith_app_r : pieces.

(** ** Prompt formatting *)

(** C1.  For the record with gold answer "東京", question [q] and the single
    context document titled "日本の首都" with body "東京は日本の首都です。",
    the default template ([RCQA.doc_to_text], whose separator is the
    newline) returns exactly
    "[題名]:日本の首都\n[問題]:東京は日本の首都です。\n[質問]:" + q + "\n[答え]:". *)
Theorem doc_to_text_capital_of_japan (q : string) (tok : Tokenizer) (ds : DatasetDict) :
  doc_to_text (new RCQA tok ds) (capital_of_japan q)
  = "[題名]:日本の首都" ++ nl ++ "[問題]:東京は日本の首都です。" ++ nl
      ++ "[質問]:" ++ q ++ nl ++ "[答え]:".
Proof.
  unfold doc_to_text, topk_documents, capital_of_japan; cbn [cls new SEP class_SEP
    TOP_K_LIMIT class_TOP_K_LIMIT documents question title text slice_to].
  change (slice_to _TOP_K_LIMIT ?l) with l.
  cbn [map join String.concat title text].
  now rewrite !append_assoc.
Qed.

(** C3.  Whatever the record and whichever of the four templates, the
    prompt contains the question text and ends with the template's answer
    cue: "[答え]:", "回答:", "### 応答:\n" or "システム: ". *)
Theorem doc_to_text_question_and_cue (self : Task) (doc : Doc) :
  contains (doc_to_text self doc) (question doc)
  /\ endswith (doc_to_text self doc) (answer_cue (cls self)).
Proof.
  unfold doc_to_text.
  destruct (cls self); cbn [answer_cue]; split; auto 20 with pieces.
Qed.

(** C10.  [doc_to_target] returns the gold answer exactly as the record
    stores it, for every template alike. *)
Theorem doc_to_target_is_answer (self : Task) (doc : Doc) :
  doc_to_target self doc = answer doc.
Proof. reflexivity. Qed.

(** ** The cap on context documents *)

Lemma slice_to_length {A : Type} (k : Z) (l : list A) :
  (0 <= k)%Z -> (Z.of_nat (List.length (slice_to k l)) <= k)%Z.
Proof.
  intros Hk. unfold slice_to.
  destruct (Z.leb_spec 0 k) as [_|Hneg]; [|lia].
  rewrite length_firstn. lia.
Qed.

Lemma slice_to_prefix {A : Type} (k : Z) (l : list A) :
  exists dropped, l = (slice_to k l ++ dropped)%list.
Proof.
  unfold slice_to. destruct (0 <=? k)%Z.
  - exists (skipn (Z.to_nat k) l). now rewrite firstn_skipn.
  - exists (skipn (Z.to_nat (Z.of_nat (List.length l) + k)) l). now rewrite firstn_skipn.
Qed.

Lemma slice_to_idempotent {A : Type} (k : Z) (l : list A) :
  (0 <= k)%Z -> slice_to k (slice_to k l) = slice_to k l.
Proof.
  intros Hk. unfold slice_to.
  destruct (Z.leb_spec 0 k) as [_|Hneg]; [|lia].
  rewrite firstn_firstn. now rewrite Nat.min_id.
Qed.

Lemma slice_to_short {A : Type} (k : Z) (l : list A) :
  (Z.of_nat (List.length l) <= k)%Z -> slice_to k l = l.
Proof.
  intros Hk. unfold slice_to.
  destruct (Z.leb_spec 0 k) as [_|Hneg]; [|lia].
  apply firstn_all2. lia.
Qed.

Lemma class_TOP_K_LIMIT_default (v : version) : class_TOP_K_LIMIT v = 10%Z.
Proof. now destruct v. Qed.

Lemma topk_documents_set_documents (self : Task) (doc : Doc) :
  (0 <= TOP_K_LIMIT self)%Z ->
  topk_documents self (set_documents doc (topk_documents self doc)) = topk_documents self doc.
Proof.
  intros Hk. unfold topk_documents. cbn [documents set_documents].
  now apply slice_to_idempotent.
Qed.

Lemma doc_to_text_ignores_dropped (self : Task) (doc doc' : Doc) :
  question doc = question doc' ->
  topk_documents self doc = topk_documents self doc' ->
  doc_to_text self doc = doc_to_text self doc'.
Proof.
  intros Hq Hdocs. unfold doc_to_text. now rewrite Hq, Hdocs.
Qed.

(** C2.  For every record and every template, the documents rendered into
    the prompt are the first ones of the record and there are at most
    [TOP_K_LIMIT] of them (the cap is a count, so not negative; 10 in each
    class).  The record's remaining documents are dropped: the prompt is
    the prompt of the record cut down to the rendered documents, and the
    formatter is a total function, so nothing is raised for a longer
    list. *)
Theorem doc_to_text_document_cap (self : Task) (doc : Doc) :
  (0 <= TOP_K_LIMIT self)%Z ->
  (Z.of_nat (List.length (topk_documents self doc)) <= TOP_K_LIMIT self)%Z
  /\ (exists dropped, documents doc = (topk_documents self doc ++ dropped)%list)
  /\ doc_to_text self doc
     = doc_to_text self (set_documents doc (topk_documents self doc)).
Proof.
  intros Hk. split; [|split].
  - now apply slice_to_length.
  - apply slice_to_prefix.
  - unfold doc_to_text.
    rewrite (topk_documents_set_documents self doc Hk).
    reflexivity.
Qed.

Lemma doc_to_text_document_cap_witness :
  (0 <= TOP_K_LIMIT (new RCQAWithFintanPrompt no_tokenizer empty_dataset))%Z
  /\ (Z.of_nat (List.length (topk_documents (new RCQAWithFintanPrompt no_tokenizer empty_dataset)
                               twelve_documents))
      <= TOP_K_LIMIT (new RCQAWithFintanPrompt no_tokenizer empty_dataset))%Z
  /\ (exists dropped,
         documents twelve_documents
         = (topk_documents (new RCQAWithFintanPrompt no_tokenizer empty_dataset) twelve_documents
              ++ dropped)%list)
  /\ doc_to_text (new RCQAWithFintanPrompt no_tokenizer empty_dataset) twelve_documents
     = doc_to_text (new RCQAWithFintanPrompt no_tokenizer empty_dataset)
         (set_documents twelve_documents
            (topk_documents (new RCQAWithFintanPrompt no_tokenizer empty_dataset)
               twelve_documents)).
Proof.
  split.
  - cbv [new TOP_K_LIMIT class_TOP_K_LIMIT _TOP_K_LIMIT]. lia.
  - apply (doc_to_text_document_cap
             (new RCQAWithFintanPrompt no_tokenizer empty_dataset) twelve_documents).
    cbv [new TOP_K_LIMIT class_TOP_K_LIMIT _TOP_K_LIMIT]. lia.
Defined.

Example twelve_documents_ten_rendered :
  List.length (documents twelve_documents) = 12
  /\ forall v, List.length (topk_documents (new v no_tokenizer empty_dataset) twelve_documents) = 10.
Proof. split; [reflexivity | now destruct v]. Qed.

Example twelve_documents_fintan_prompt :
  doc_to_text (new RCQAWithFintanPrompt no_tokenizer empty_dataset) twelve_documents
  = "文章:文1" ++ nl ++ "文2" ++ nl ++ "文3" ++ nl ++ "文4" ++ nl ++ "文5" ++ nl
      ++ "文6" ++ nl ++ "文7" ++ nl ++ "文8" ++ nl ++ "文9" ++ nl ++ "文10" ++ nl
      ++ "質問:首都はどこですか" ++ nl ++ "回答:".
Proof. vm_compute. reflexivity. Qed.

(** ** Result processing *)

Lemma process_results_singleton (self : Task) (doc : Doc) (continuation : string) :
  process_results self doc [continuation]
  = Ok [ ("exact_match",
          ({| pred_id := qid doc; prediction_text := continuation |},
           {| ref_id := qid doc;
              answers := {| gold_text := [answer doc]; answer_start := [(-1)%Z] |} |}));
         ("f1",
          ({| pred_id := qid doc; prediction_text := continuation |},
           {| ref_id := qid doc;
              answers := {| gold_text := [answer doc]; answer_start := [(-1)%Z] |} |})) ].
Proof. reflexivity. Qed.

Lemma process_results_wrong_length (self : Task) (doc : Doc) (results : list string) :
  List.length results <> 1 ->
  process_results self doc results
  = Raise (AssertionError "results should be a list with 1 str element, but is " results).
Proof.
  intros Hlen. unfold process_results.
  destruct (Nat.eqb_spec (List.length results) 1) as [Heq|_]; [contradiction|].
  reflexivity.
Qed.

Example process_results_two_outputs :
  process_results (new RCQA no_tokenizer empty_dataset) (capital_of_japan "日本の首都は")
    ["東京"; "京都"]
  = Raise (AssertionError "results should be a list with 1 str element, but is "
             ["東京"; "京都"]).
Proof. reflexivity. Qed.

Example process_results_no_output :
  process_results (new RCQA no_tokenizer empty_dataset) (capital_of_japan "日本の首都は") []
  = Raise (AssertionError "results should be a list with 1 str element, but is " []).
Proof. reflexivity. Qed.

(** C4.  [process_results] raises exactly when the list of model outputs
    does not have length one, and what it raises is the assertion error
    carrying the message and the offending list.  Two outputs raise; one
    output returns normally. *)
Theorem process_results_raises_iff_not_one (self : Task) (doc : Doc) (results : list string) :
  ((exists e, process_results self doc results = Raise e) <-> List.length results <> 1)
  /\ (List.length results <> 1 ->
      process_results self doc results
      = Raise (AssertionError "results should be a list with 1 str element, but is " results))
  /\ (forall a b, exists e, process_results self doc [a; b] = Raise e)
  /\ (forall a, exists out, process_results self doc [a] = Ok out).
Proof.
  split; [|split; [|split]].
  - split.
    + intros [e He] Hlen.
      destruct results as [|a [|b rest]]; try discriminate Hlen.
      rewrite process_results_singleton in He. discriminate He.
    + intros Hlen. eexists. now apply process_results_wrong_length.
  - apply process_results_wrong_length.
  - intros a b. eexists. apply process_results_wrong_length. discriminate.
  - intros a. eexists. apply process_results_singleton.
Qed.

(** C9.  For a singleton list of outputs the returned dictionary has the
    keys "exact_match" and "f1", both bound to one and the same
    prediction/reference pair; prediction and reference carry the record's
    "qid", the prediction text is the model output, and the reference wraps
    the gold answer in a one-element text list with [answer_start = [-1]]. *)
Theorem process_results_pair (self : Task) (doc : Doc) (continuation : string) :
  exists (out : list (string * (Prediction * Reference)))
         (predictions : Prediction) (references : Reference),
    process_results self doc [continuation] = Ok out
    /\ out = [("exact_match", (predictions, references)); ("f1", (predictions, references))]
    /\ getitem out "exact_match" = Ok (predictions, references)
    /\ getitem out "f1" = Ok (predictions, references)
    /\ pred_id predictions = qid doc
    /\ ref_id references = qid doc
    /\ prediction_text predictions = continuation
    /\ gold_text (answers references) = [answer doc]
    /\ answer_start (answers references) = [(-1)%Z].
Proof.
  do 3 eexists. split; [apply process_results_singleton|].
  repeat split.
Qed.

(** ** Request construction *)

Lemma str_in_In (x : string) (l : list string) : str_in x l = true <-> In x l.
Proof.
  unfold str_in. rewrite existsb_exists. split.
  - intros (y & Hy & Heq). apply String.eqb_eq in Heq. now subst.
  - intros Hx. exists x. split; [assumption | apply String.eqb_refl].
Qed.

Lemma str_in_not_In (x : string) (l : list string) : str_in x l = false <-> ~ In x l.
Proof.
  rewrite <- str_in_In. destruct (str_in x l); split; congruence.
Qed.

Lemma DYNAMIC_MAX_LENGTH_default (environ : string -> option string) :
  environ "DYNAMIC_MAX_LENGTH" = None -> DYNAMIC_MAX_LENGTH environ = "true".
Proof.
  intros Hunset. unfold DYNAMIC_MAX_LENGTH, getenv. now rewrite Hunset.
Qed.

Lemma construct_requests_limited (environ : string -> option string)
    (self : Task) (doc : Doc) (ctx : string) (encode_fn : EncodeFn) :
  DYNAMIC_MAX_LENGTH environ <> "false" ->
  encode (tokenizer self) = Some encode_fn ->
  construct_requests environ self doc ctx
  = rf_greedy_until ctx [SEP self]
      (Some (List.length
               (call encode_fn (answer doc)
                  (if str_in "add_special_tokens" (args (getfullargspec encode_fn))
                   then [("add_special_tokens", false)] else [])))).
Proof.
  intros Hon Henc. unfold construct_requests, hasattr_encode.
  apply String.eqb_neq in Hon. rewrite Hon, Henc. reflexivity.
Qed.

Lemma construct_requests_unlimited (environ : string -> option string)
    (self : Task) (doc : Doc) (ctx : string) :
  DYNAMIC_MAX_LENGTH environ = "false" \/ encode (tokenizer self) = None ->
  construct_requests environ self doc ctx = rf_greedy_until ctx [SEP self] None.
Proof.
  intros Hoff. unfold construct_requests, hasattr_encode.
  destruct Hoff as [Hoff|Hnone].
  - rewrite Hoff. reflexivity.
  - rewrite Hnone. now destruct (DYNAMIC_MAX_LENGTH environ =? "false").
Qed.

(** C5, as the code has it.  The length-limiting mode is on unless the
    lower-cased environment setting is "false", and it is on when the
    setting is absent.  With the mode on and a tokenizer that has [encode],
    the request carries a maximum length equal to the number of tokens
    [encode] returns for the gold answer.  [encode] is called with
    [add_special_tokens=False] exactly when [add_special_tokens] is among
    [inspect.getfullargspec(encode).args], the names of the parameters
    that can be passed by position; when it is not among them, be it a
    keyword-only parameter or taken by [**kwargs], [encode] is called with
    no keyword argument.  With the mode off, or a tokenizer without
    [encode], the request carries no maximum length. *)
Theorem construct_requests_max_length (environ : string -> option string)
    (self : Task) (doc : Doc) (ctx : string) :
  (environ "DYNAMIC_MAX_LENGTH" = None -> DYNAMIC_MAX_LENGTH environ <> "false")
  /\ (forall encode_fn,
        DYNAMIC_MAX_LENGTH environ <> "false" ->
        encode (tokenizer self) = Some encode_fn ->
        In "add_special_tokens" (args (getfullargspec encode_fn)) ->
        max_length (construct_requests environ self doc ctx)
        = Some (List.length (call encode_fn (answer doc) [("add_special_tokens", false)])))
  /\ (forall encode_fn,
        DYNAMIC_MAX_LENGTH environ <> "false" ->
        encode (tokenizer self) = Some encode_fn ->
        ~ In "add_special_tokens" (args (getfullargspec encode_fn)) ->
        max_length (construct_requests environ self doc ctx)
        = Some (List.length (call encode_fn (answer doc) [])))
  /\ (DYNAMIC_MAX_LENGTH environ = "false" \/ encode (tokenizer self) = None ->
      max_length (construct_requests environ self doc ctx) = None).
Proof.
  split; [|split; [|split]].
  - intros Hunset. rewrite (DYNAMIC_MAX_LENGTH_default environ Hunset). discriminate.
  - intros encode_fn Hon Henc Hin.
    rewrite (construct_requests_limited environ self doc ctx encode_fn Hon Henc).
    apply str_in_In in Hin. now rewrite Hin.
  - intros encode_fn Hon Henc Hnotin.
    rewrite (construct_requests_limited environ self doc ctx encode_fn Hon Henc).
    apply str_in_not_In in Hnotin. now rewrite Hnotin.
  - intros Hoff. now rewrite (construct_requests_unlimited environ self doc ctx Hoff).
Qed.

Example max_length_without_special_tokens :
  max_length
    (construct_requests no_environ
       (new RCQA {| encode := Some encode_positional |} empty_dataset)
       (capital_of_japan "日本の首都は") "prompt")
  = Some 6.
Proof. vm_compute. reflexivity. Qed.

Example max_length_with_default_special_tokens :
  max_length
    (construct_requests (environ_with "TRUE")
       (new RCQA {| encode := Some encode_plain |} empty_dataset)
       (capital_of_japan "日本の首都は") "prompt")
  = Some 8.
Proof. vm_compute. reflexivity. Qed.

Example max_length_switched_off :
  max_length
    (construct_requests (environ_with "False")
       (new RCQA {| encode := Some encode_positional |} empty_dataset)
       (capital_of_japan "日本の首都は") "prompt")
  = None.
Proof. vm_compute. reflexivity. Qed.

Example max_length_without_encode :
  max_length
    (construct_requests no_environ (new RCQA no_tokenizer empty_dataset)
       (capital_of_japan "日本の首都は") "prompt")
  = None.
Proof. vm_compute. reflexivity. Qed.

(** C5, the claim on a signature that accepts the argument.  An [encode]
    whose signature takes [add_special_tokens] as a keyword-only parameter,
    or through [**kwargs], accepts the argument, yet the name is not in its
    [args]: [encode] is called without it, special tokens are inserted, and
    the maximum length is 8 where [add_special_tokens=False] gives 6
    tokens. *)
Lemma accepted_keyword_not_passed :
  accepts_keyword (getfullargspec encode_keyword_only) "add_special_tokens" = true
  /\ List.length (call encode_keyword_only (answer (capital_of_japan "日本の首都は"))
                    [("add_special_tokens", false)]) = 6
  /\ max_length
       (construct_requests no_environ
          (new RCQA {| encode := Some encode_keyword_only |} empty_dataset)
          (capital_of_japan "日本の首都は") "prompt")
     = Some 8
  /\ accepts_keyword (getfullargspec encode_with_kwargs) "add_special_tokens" = true
  /\ max_length
       (construct_requests no_environ
          (new RCQA {| encode := Some encode_with_kwargs |} empty_dataset)
          (capital_of_japan "日本の首都は") "prompt")
     = Some 8.
Proof. repeat split. Qed.

Lemma construct_requests_shape (environ : string -> option string)
    (self : Task) (doc : Doc) (ctx : string) :
  exists max_num_tokens,
    construct_requests environ self doc ctx = rf_greedy_until ctx [SEP self] max_num_tokens.
Proof.
  unfold construct_requests.
  destruct ((DYNAMIC_MAX_LENGTH environ =? "false") || negb (hasattr_encode (tokenizer self)));
    [now eexists|].
  destruct (encode (tokenizer self)); now eexists.
Qed.

(** C8.  In every branch of [construct_requests] the request is a
    [greedy_until] request for the given context whose stop-sequence list
    is the one-element list holding the task's [SEP]. *)
Theorem construct_requests_stop_sequence (environ : string -> option string)
    (self : Task) (doc : Doc) (ctx : string) :
  until (construct_requests environ self doc ctx) = [SEP self]
  /\ In (SEP self) (until (construct_requests environ self doc ctx))
  /\ request_type (construct_requests environ self doc ctx) = "greedy_until"
  /\ ctx_arg (construct_requests environ self doc ctx) = ctx.
Proof.
  destruct (construct_requests_shape environ self doc ctx) as [m ->].
  cbn [rf_greedy_until until request_type ctx_arg].
  repeat split. now left.
Qed.

Example rinna_stop_sequence (environ : string -> option string) (tok : Tokenizer)
    (ds : DatasetDict) (doc : Doc) (ctx : string) :
  until (construct_requests environ (new RCQAWithRinnaInstructionSFT tok ds) doc ctx) = ["<NL>"].
Proof.
  now destruct (construct_requests_shape environ (new RCQAWithRinnaInstructionSFT tok ds) doc ctx)
    as [m ->].
Qed.

(** ** Aggregation *)

Lemma squad_agg_nonempty (score : Type)
    (compute : list Prediction -> list Reference -> result (list (string * score)))
    (key : string) (p : Prediction * Reference) (item : list (Prediction * Reference)) :
  _squad_agg score compute key (p :: item)
  = bind (compute (map fst (p :: item)) (map snd (p :: item)))
         (fun scores => getitem scores key).
Proof. reflexivity. Qed.

(** C6, as the code has it.  On the empty list of pairs [_squad_agg]
    raises the unpacking [ValueError] of
    [predictions, references = zip( *item )] whatever the metric is, so
    the metric's [compute] is not reached.  On a list with at least one
    pair the predictions and the references are handed to [compute], and
    the entry of its result under the key is returned; what [compute]
    raises is passed on. *)
Theorem squad_agg_empty_raises_else_delegates (score : Type)
    (compute : list Prediction -> list Reference -> result (list (string * score)))
    (key : string) :
  _squad_agg score compute key []
  = Raise (ValueError "not enough values to unpack (expected 2, got 0)")
  /\ forall p item,
       _squad_agg score compute key (p :: item)
       = bind (compute (map fst (p :: item)) (map snd (p :: item)))
              (fun scores => getitem scores key).
Proof.
  split; [reflexivity|]. intros p item. apply squad_agg_nonempty.
Qed.

(** C6, the claim on the empty list.  Even with a metric that returns its
    scores for any input, the empty list included, aggregating the empty
    list raises: the call stops before the metric. *)
Lemma squad_agg_empty_list_crashes :
  steady_metric [] [] = Ok [("exact_match", 0%Z); ("f1", 0%Z)]
  /\ _squad_agg Z steady_metric "exact_match" []
     = Raise (ValueError "not enough values to unpack (expected 2, got 0)")
  /\ _squad_agg Z steady_metric "f1" []
     = Raise (ValueError "not enough values to unpack (expected 2, got 0)").
Proof. repeat split. Qed.

(** ** Split accessors *)

Lemma filter_subseq {A : Type} (keep : A -> bool) (l : list A) : subseq (filter keep l) l.
Proof.
  induction l as [|x l IH]; simpl.
  - constructor.
  - destruct (keep x); now constructor.
Qed.

Lemma test_docs_filter (self : Task) :
  test_docs self
  = filter (fun item => negb (str_in (doc_id item) (REMOVE_IDS self))) (test (dataset self)).
Proof.
  unfold test_docs. destruct (REMOVE_IDS self) as [|i ids]; [|reflexivity].
  cbn [List.length Nat.ltb Nat.leb str_in existsb negb].
  induction (test (dataset self)) as [|d ds IH]; simpl; [reflexivity | now rewrite <- IH].
Qed.

(** C7, as the code has it.  The test split is filtered by [REMOVE_IDS]:
    [test_docs] returns a record exactly when the split holds it and its
    "id" is not in the list, in the split's order, and returns the split
    unchanged when the list is empty.  The train split is not filtered:
    [training_docs] returns it as it is, whatever [REMOVE_IDS] holds. *)
Theorem test_docs_filtered_training_docs_whole (self : Task) :
  (forall d, In d (test_docs self)
             <-> In d (test (dataset self)) /\ ~ In (doc_id d) (REMOVE_IDS self))
  /\ subseq (test_docs self) (test (dataset self))
  /\ (REMOVE_IDS self = [] -> test_docs self = test (dataset self))
  /\ training_docs self = train (dataset self).
Proof.
  split; [|split; [|split]].
  - intros d. rewrite test_docs_filter, filter_In, negb_true_iff, str_in_not_In. reflexivity.
  - rewrite test_docs_filter. apply filter_subseq.
  - intros Hempty. unfold test_docs. now rewrite Hempty.
  - reflexivity.
Qed.

(** C7, the claim on the train split.  With "a" in [REMOVE_IDS],
    [training_docs] still returns the train record whose "id" is "a",
    while [test_docs] leaves the test record with that "id" out. *)
Lemma training_docs_returns_excluded_id :
  In excluded_row (training_docs excluding_task)
  /\ In (doc_id excluded_row) (REMOVE_IDS excluding_task)
  /\ test_docs excluding_task = [kept_row].
Proof.
  repeat split; [now left | now left].
Qed.

(** * Further properties of the module *)

(** ** What the prompt holds and what it depends on *)

Lemma contains_trans (s t u : string) : contains s t -> contains t u -> contains s u.
Proof.
  intros (a & b & ->) (c & d & ->). exists (a ++ c), (d ++ b).
  now rewrite !append_assoc.
Qed.

Lemma join_cons_cons (sep y z : string) (l : list string) :
  join sep (y :: z :: l) = y ++ sep ++ join sep (z :: l).
Proof. reflexivity. Qed.

Lemma join_contains (sep x : string) (l : list string) :
  In x l -> contains (join sep l) x.
Proof.
  induction l as [|y l IH]; intros Hin; [contradiction|].
  destruct l as [|z l].
  - destruct Hin as [->|[]]. apply contains_self.
  - rewrite join_cons_cons. destruct Hin as [->|Hin].
    + apply contains_head.
    + do 2 apply contains_app_r. now apply IH.
Qed.

(** Every document among the first [TOP_K_LIMIT] of the record has its
    text in the prompt, under each template; the default template also
    holds its title. *)
Theorem rendered_documents_in_prompt (self : Task) (doc : Doc) (d : Document) :
  In d (topk_documents self doc) ->
  contains (doc_to_text self doc) (text d)
  /\ (cls self = RCQA -> contains (doc_to_text self doc) (title d)).
Proof.
  intros Hin.
  assert (Htext : contains (join (SEP self) (map text (topk_documents self doc))) (text d)).
  { apply join_contains. now apply in_map. }
  assert (Hpiece : forall part,
            contains ("[題名]:" ++ title d ++ SEP self ++ "[問題]:" ++ text d) part ->
            contains
              (join (SEP self)
                 (map (fun document =>
                         "[題名]:" ++ title document ++ SEP self ++ "[問題]:" ++ text document)
                      (topk_documents self doc))) part).
  { intros part Hpart. eapply contains_trans; [|exact Hpart].
    apply join_contains.
    apply (in_map (fun document =>
                     "[題名]:" ++ title document ++ SEP self ++ "[問題]:" ++ text document)).
    exact Hin. }
  unfold doc_to_text. destruct (cls self); split; try discriminate.
  - apply contains_app_l, Hpiece. auto 10 with pieces.
  - intros _. apply contains_app_l, Hpiece. auto 10 with pieces.
  - apply contains_app_r, contains_app_l, Htext.
  - do 7 apply contains_app_r. apply contains_app_l.
    apply contains_app_r, contains_app_l, Htext.
  - apply contains_app_r, contains_app_l.
    apply contains_app_r, contains_app_l, Htext.
Qed.

Lemma rendered_documents_in_prompt_witness :
  In {| title := "題2"; text := "文2" |}
     (topk_documents (new RCQA no_tokenizer empty_dataset) two_documents)
  /\ contains (doc_to_text (new RCQA no_tokenizer empty_dataset) two_documents) "文2"
  /\ (cls (new RCQA no_tokenizer empty_dataset) = RCQA ->
      contains (doc_to_text (new RCQA no_tokenizer empty_dataset) two_documents) "題2").
Proof.
  split.
  - right. left. reflexivity.
  - apply (rendered_documents_in_prompt (new RCQA no_tokenizer empty_dataset) two_documents
             {| title := "題2"; text := "文2" |}).
    right. left. reflexivity.
Defined.

Lemma map_pair_ext {A B C D : Type} (f : A -> B) (g : A -> C) (h : B -> C -> D)
    (l l' : list A) :
  map f l = map f l' -> map g l = map g l' ->
  map (fun a => h (f a) (g a)) l = map (fun a => h (f a) (g a)) l'.
Proof.
  revert l'. induction l as [|a l IH]; intros [|a' l'] Hf Hg; try discriminate; [reflexivity|].
  simpl in *. injection Hf as Hfa Hf. injection Hg as Hga Hg.
  now rewrite Hfa, Hga, (IH l' Hf Hg).
Qed.

(** The prompt is a function of the question and of the texts of the first
    [TOP_K_LIMIT] documents, and for the default template of their titles
    too.  Two records that agree on these have the same prompt whatever
    their gold answers, identifiers and remaining documents are, and under
    the three other templates whatever the titles are. *)
Theorem prompt_depends_on_question_and_rendered (self : Task) (doc doc' : Doc) :
  question doc = question doc' ->
  map text (topk_documents self doc) = map text (topk_documents self doc') ->
  (cls self = RCQA ->
   map title (topk_documents self doc) = map title (topk_documents self doc')) ->
  doc_to_text self doc = doc_to_text self doc'.
Proof.
  intros Hq Htext Htitle. unfold doc_to_text. rewrite Hq, Htext.
  destruct (cls self); try reflexivity.
  rewrite (map_pair_ext title text
             (fun t x => "[題名]:" ++ t ++ SEP self ++ "[問題]:" ++ x)
             (topk_documents self doc) (topk_documents self doc')
             (Htitle eq_refl) Htext).
  reflexivity.
Qed.

Lemma prompt_depends_on_question_and_rendered_witness :
  answer (capital_of_japan "日本の首都は") <> answer (capital_of_japan_relabelled "日本の首都は")
  /\ doc_to_text (new RCQA no_tokenizer empty_dataset) (capital_of_japan "日本の首都は")
     = doc_to_text (new RCQA no_tokenizer empty_dataset)
         (capital_of_japan_relabelled "日本の首都は").
Proof.
  split.
  - discriminate.
  - apply (prompt_depends_on_question_and_rendered (new RCQA no_tokenizer empty_dataset)
             (capital_of_japan "日本の首都は") (capital_of_japan_relabelled "日本の首都は"));
      [reflexivity | reflexivity | intros _; reflexivity].
Defined.

(** With a cap that is not negative, the number of documents rendered is
    the smaller of the cap and the length of the record's list; a record
    with no more documents than the cap has all of them rendered, and its
    prompt holds the text of each. *)
Theorem rendered_count_is_min (self : Task) (doc : Doc) :
  (0 <= TOP_K_LIMIT self)%Z ->
  List.length (topk_documents self doc)
  = Nat.min (Z.to_nat (TOP_K_LIMIT self)) (List.length (documents doc))
  /\ ((Z.of_nat (List.length (documents doc)) <= TOP_K_LIMIT self)%Z ->
      topk_documents self doc = documents doc
      /\ forall d, In d (documents doc) -> contains (doc_to_text self doc) (text d)).
Proof.
  intros Hk. split.
  - unfold topk_documents, slice_to.
    destruct (Z.leb_spec 0 (TOP_K_LIMIT self)) as [_|Hneg]; [|lia].
    apply length_firstn.
  - intros Hshort.
    assert (Hall : topk_documents self doc = documents doc)
      by now apply slice_to_short.
    split; [exact Hall|].
    intros d Hin. rewrite <- Hall in Hin.
    assert (Htext : contains (join (SEP self) (map text (topk_documents self doc))) (text d)).
    { apply join_contains. now apply in_map. }
    unfold doc_to_text. destruct (cls self).
    + apply contains_app_l.
      eapply contains_trans.
      * apply join_contains.
        apply (in_map (fun document =>
                         "[題名]:" ++ title document ++ SEP self ++ "[問題]:" ++ text document)).
        exact Hin.
      * auto 10 with pieces.
    + apply contains_app_r, contains_app_l, Htext.
    + do 7 apply contains_app_r. apply contains_app_l.
      apply contains_app_r, contains_app_l, Htext.
    + apply contains_app_r, contains_app_l.
      apply contains_app_r, contains_app_l, Htext.
Qed.

Lemma rendered_count_is_min_witness :
  (0 <= TOP_K_LIMIT (new RCQAWithRinnaInstructionSFT no_tokenizer empty_dataset))%Z
  /\ List.length (topk_documents (new RCQAWithRinnaInstructionSFT no_tokenizer empty_dataset)
                    twelve_documents)
     = Nat.min (Z.to_nat (TOP_K_LIMIT (new RCQAWithRinnaInstructionSFT no_tokenizer empty_dataset)))
         (List.length (documents twelve_documents)).
Proof.
  split.
  - cbv [new TOP_K_LIMIT class_TOP_K_LIMIT _TOP_K_LIMIT]. lia.
  - apply (rendered_count_is_min (new RCQAWithRinnaInstructionSFT no_tokenizer empty_dataset)
             twelve_documents).
    cbv [new TOP_K_LIMIT class_TOP_K_LIMIT _TOP_K_LIMIT]. lia.
Defined.

(** With nothing to render, because the record has no document or the cap
    is 0, the context is empty: the default prompt then starts with the
    separator, and the other templates keep their labels around an empty
    context. *)
Theorem prompt_without_documents (self : Task) (doc : Doc) :
  documents doc = [] \/ TOP_K_LIMIT self = 0%Z ->
  doc_to_text self doc
  = match cls self with
    | RCQA => SEP self ++ "[質問]:" ++ question doc ++ SEP self ++ "[答え]:"
    | RCQAWithFintanPrompt =>
        "文章:" ++ SEP self ++ "質問:" ++ question doc ++ SEP self ++ "回答:"
    | RCQAWithJAAlpacaPrompt =>
        "### 指示:" ++ nl ++ INSTRUCTION ++ nl ++ nl ++ "### 入力:" ++ nl
          ++ "文脈：" ++ nl ++ "質問：" ++ question doc ++ nl ++ nl ++ "### 応答:" ++ nl
    | RCQAWithRinnaInstructionSFT =>
        "ユーザー: 文脈：" ++ SEP self ++ "質問：" ++ question doc ++ SEP self ++ "システム: "
    end.
Proof.
  intros Hnone.
  assert (Hempty : topk_documents self doc = []).
  { unfold topk_documents. destruct Hnone as [-> | ->]; [|reflexivity].
    unfold slice_to. destruct (0 <=? TOP_K_LIMIT self)%Z; apply firstn_nil. }
  unfold doc_to_text. rewrite Hempty. cbn [map join String.concat].
  destruct (cls self); cbn [append]; rewrite ?append_assoc; reflexivity.
Qed.

Lemma prompt_without_documents_witness :
  documents no_documents = []
  /\ doc_to_text (new RCQA no_tokenizer empty_dataset) no_documents
     = nl ++ "[質問]:首都はどこですか" ++ nl ++ "[答え]:".
Proof.
  split.
  - reflexivity.
  - apply (prompt_without_documents (new RCQA no_tokenizer empty_dataset) no_documents).
    left. reflexivity.
Defined.

(** ** The dialogue template stays on one line *)

Lemma has_newline_app (a b : string) :
  has_newline (a ++ b) = has_newline a || has_newline b.
Proof.
  induction a as [|c a IH]; simpl; [reflexivity|].
  now rewrite IH, orb_assoc.
Qed.

Lemma has_newline_join (sep : string) (l : list string) :
  has_newline sep = false ->
  (forall x, In x l -> has_newline x = false) ->
  has_newline (join sep l) = false.
Proof.
  intros Hsep. induction l as [|y l IH]; intros Hall; [reflexivity|].
  destruct l as [|z l].
  - apply Hall. now left.
  - rewrite join_cons_cons, !has_newline_app, Hsep, (Hall y (or_introl eq_refl)).
    apply IH. intros x Hx. apply Hall. now right.
Qed.

(** The dialogue template adds no line break of its own: when the
    separator, the question and the texts of the rendered documents hold
    no newline, neither does the prompt. *)
Theorem rinna_prompt_single_line (self : Task) (doc : Doc) :
  cls self = RCQAWithRinnaInstructionSFT ->
  has_newline (SEP self) = false ->
  has_newline (question doc) = false ->
  (forall d, In d (topk_documents self doc) -> has_newline (text d) = false) ->
  has_newline (doc_to_text self doc) = false.
Proof.
  intros Hcls Hsep Hq Hdocs. unfold doc_to_text. rewrite Hcls.
  rewrite !has_newline_app, Hsep, Hq.
  rewrite has_newline_join; [reflexivity | exact Hsep |].
  intros x Hx. apply in_map_iff in Hx. destruct Hx as (d & <- & Hd). now apply Hdocs.
Qed.

Lemma rinna_prompt_single_line_witness :
  has_newline
    (doc_to_text (new RCQAWithRinnaInstructionSFT no_tokenizer empty_dataset) two_documents)
  = false.
Proof.
  apply (rinna_prompt_single_line
           (new RCQAWithRinnaInstructionSFT no_tokenizer empty_dataset) two_documents);
    [reflexivity | reflexivity | reflexivity |].
  intros d [<- | [<- | []]]; reflexivity.
Defined.

Example default_prompt_has_newline :
  has_newline (doc_to_text (new RCQA no_tokenizer empty_dataset) two_documents) = true.
Proof. vm_compute. reflexivity. Qed.

(** ** The switch of the length limit *)

Lemma lower_ascii_false_letters (c : ascii) :
  Ascii.eqb (lower_ascii c) "f" = (Ascii.eqb c "f" || Ascii.eqb c "F")
  /\ Ascii.eqb (lower_ascii c) "a" = (Ascii.eqb c "a" || Ascii.eqb c "A")
  /\ Ascii.eqb (lower_ascii c) "l" = (Ascii.eqb c "l" || Ascii.eqb c "L")
  /\ Ascii.eqb (lower_ascii c) "s" = (Ascii.eqb c "s" || Ascii.eqb c "S")
  /\ Ascii.eqb (lower_ascii c) "e" = (Ascii.eqb c "e" || Ascii.eqb c "E").
Proof.
  destruct c as [[] [] [] [] [] [] [] []]; vm_compute; repeat split.
Qed.

Lemma lower_eqb_false (v : string) : (lower v =? "false") = spells_false v.
Proof.
  destruct v as [|c1 [|c2 [|c3 [|c4 [|c5 v]]]]]; try reflexivity;
    cbn [lower String.eqb spells_false];
    destruct (lower_ascii_false_letters c1) as (-> & _ & _ & _ & _);
    try destruct (lower_ascii_false_letters c2) as (_ & -> & _ & _ & _);
    try destruct (lower_ascii_false_letters c3) as (_ & _ & -> & _ & _);
    try destruct (lower_ascii_false_letters c4) as (_ & _ & _ & -> & _);
    try destruct (lower_ascii_false_letters c5) as (_ & _ & _ & _ & ->);
    repeat match goal with
           | |- context [Ascii.eqb ?c ?x || Ascii.eqb ?c ?y] =>
               destruct (Ascii.eqb c x || Ascii.eqb c y)
           end;
    try reflexivity.
  all: destruct v; reflexivity.
Qed.

(** With a tokenizer that has [encode], the request carries no maximum
    length exactly when the environment variable is set to the word
    "false" in some mix of upper and lower case.  Unset, or set to anything
    else ("0", "no", the empty string), the limit stays on. *)
Theorem length_limit_off_iff_spells_false (environ : string -> option string)
    (self : Task) (doc : Doc) (ctx : string) (encode_fn : EncodeFn) :
  encode (tokenizer self) = Some encode_fn ->
  (max_length (construct_requests environ self doc ctx) = None
   <-> exists v, environ "DYNAMIC_MAX_LENGTH" = Some v /\ spells_false v = true).
Proof.
  intros Henc.
  unfold construct_requests, hasattr_encode, DYNAMIC_MAX_LENGTH, getenv.
  rewrite Henc. cbn [negb orb].
  destruct (environ "DYNAMIC_MAX_LENGTH") as [v|].
  - rewrite lower_eqb_false, orb_false_r.
    destruct (spells_false v) eqn:Hv; cbn [rf_greedy_until max_length].
    + split; [intros _; now exists v | reflexivity].
    + split; [discriminate | intros (w & Hw & Hs); congruence].
  - change (lower "true" =? "false") with false.
    cbn [orb rf_greedy_until max_length].
    split; [discriminate | intros (w & Hw & _); discriminate].
Qed.

Lemma length_limit_off_iff_spells_false_witness :
  encode {| encode := Some encode_positional |} = Some encode_positional
  /\ (max_length
        (construct_requests (environ_with "FaLsE")
           (new RCQA {| encode := Some encode_positional |} empty_dataset)
           (capital_of_japan "日本の首都は") "prompt") = None
      <-> exists v, environ_with "FaLsE" "DYNAMIC_MAX_LENGTH" = Some v
                    /\ spells_false v = true).
Proof.
  split.
  - reflexivity.
  - apply (length_limit_off_iff_spells_false (environ_with "FaLsE")
             (new RCQA {| encode := Some encode_positional |} empty_dataset)
             (capital_of_japan "日本の首都は") "prompt" encode_positional).
    reflexivity.
Defined.

Example length_limit_stays_on_for_zero :
  max_length
    (construct_requests (environ_with "0")
       (new RCQA {| encode := Some encode_positional |} empty_dataset)
       (capital_of_japan "日本の首都は") "prompt")
  = Some 6.
Proof. vm_compute. reflexivity. Qed.

(** ** Filtering the test split *)

Lemma str_in_same_members (x : string) (l l' : list string) :
  (forall i, In i l <-> In i l') -> str_in x l = str_in x l'.
Proof.
  intros Hsame.
  destruct (str_in x l) eqn:Hl, (str_in x l') eqn:Hl'; try reflexivity.
  - apply str_in_In, Hsame, str_in_In in Hl. congruence.
  - apply str_in_In, Hsame, str_in_In in Hl'. congruence.
Qed.

(** [test_docs] reads [REMOVE_IDS] as a set: two exclusion lists with the
    same members, in whatever order and with whatever repetitions, give the
    same filtered split. *)
Theorem test_docs_depends_on_id_set (self self' : Task) :
  dataset self = dataset self' ->
  (forall i, In i (REMOVE_IDS self) <-> In i (REMOVE_IDS self')) ->
  test_docs self = test_docs self'.
Proof.
  intros Hds Hsame. rewrite !test_docs_filter, Hds.
  apply filter_ext. intros item. f_equal. now apply str_in_same_members.
Qed.

Lemma test_docs_depends_on_id_set_witness :
  REMOVE_IDS excluding_ab <> REMOVE_IDS excluding_ba
  /\ test_docs excluding_ab = test_docs excluding_ba
  /\ test_docs excluding_ab = [kept_row].
Proof.
  split; [discriminate|]. split; [|reflexivity].
  apply (test_docs_depends_on_id_set excluding_ab excluding_ba).
  - reflexivity.
  - intros i. simpl. tauto.
Defined.

(** [test_docs] never returns more records than the split holds; the
    records it returns and the records whose "id" is excluded add up to
    the split; and it returns the whole split exactly when no record of
    the split has an excluded "id". *)
Theorem test_docs_whole_iff_none_excluded (self : Task) :
  List.length (test_docs self) <= List.length (test (dataset self))
  /\ List.length (test_docs self)
     + List.length (filter (fun item => str_in (doc_id item) (REMOVE_IDS self))
                      (test (dataset self)))
     = List.length (test (dataset self))
  /\ (test_docs self = test (dataset self)
      <-> forall d, In d (test (dataset self)) -> ~ In (doc_id d) (REMOVE_IDS self)).
Proof.
  rewrite test_docs_filter. split; [apply filter_length_le | split].
  - rewrite <- (filter_length (fun item => negb (str_in (doc_id item) (REMOVE_IDS self)))
                  (test (dataset self))).
    f_equal. f_equal. apply filter_ext. intros item. now rewrite negb_involutive.
  - split.
    + intros Hwhole d Hd.
      assert (Hall : forallb (fun item => negb (str_in (doc_id item) (REMOVE_IDS self)))
                       (test (dataset self)) = true).
      { apply filter_length_forallb. now rewrite Hwhole. }
      rewrite forallb_forall in Hall. specialize (Hall d Hd).
      apply negb_true_iff in Hall. now apply str_in_not_In.
    + intros Hnone. apply forallb_filter_id. apply forallb_forall.
      intros d Hd. apply negb_true_iff, str_in_not_In. now apply Hnone.
Qed.

Example test_docs_of_unrelated_ids :
  test_docs excluding_none_present = test (dataset excluding_none_present)
  /\ List.length (test_docs excluding_ab) = 1
  /\ List.length (test (dataset excluding_ab)) = 3.
Proof. repeat split. Qed.

(** ** From per-example results to the metric *)

Lemma getitem_missing {V : Type} (d : list (string * V)) (key : string) :
  ~ In key (map fst d) -> getitem d key = Raise (KeyError key).
Proof.
  induction d as [|[k v] d IH]; intros Hnot; [reflexivity|].
  cbn [getitem]. destruct (String.eqb_spec k key) as [->|Hne].
  - exfalso. apply Hnot. now left.
  - apply IH. intros Hin. apply Hnot. now right.
Qed.

Lemma getitem_found {V : Type} (d : list (string * V)) (key : string) (v : V) :
  getitem d key = Ok v -> In (key, v) d.
Proof.
  induction d as [|[k w] d IH]; [discriminate|].
  cbn [getitem]. destruct (String.eqb_spec k key) as [->|Hne].
  - intros [= ->]. now left.
  - intros Hget. right. now apply IH.
Qed.

(** [_squad_agg] returns a score exactly when the list is not empty, the
    metric returns a dictionary for the predictions and the references of
    the list, and that dictionary binds the key; the score is the bound
    one.  On a list that is not empty what the metric raises is raised
    unchanged, and a result without the key raises [KeyError]. *)
Theorem squad_agg_returns_iff (score : Type)
    (compute : list Prediction -> list Reference -> result (list (string * score)))
    (key : string) (item : list (Prediction * Reference)) :
  (forall s,
      _squad_agg score compute key item = Ok s
      <-> item <> []
          /\ exists scores,
               compute (map fst item) (map snd item) = Ok scores
               /\ getitem scores key = Ok s)
  /\ (forall e,
        item <> [] -> compute (map fst item) (map snd item) = Raise e ->
        _squad_agg score compute key item = Raise e)
  /\ (forall scores,
        item <> [] -> compute (map fst item) (map snd item) = Ok scores ->
        ~ In key (map fst scores) ->
        _squad_agg score compute key item = Raise (KeyError key)).
Proof.
  destruct item as [|p item].
  - split; [|split].
    + intros s. split; [discriminate | intros [Hne _]; now contradiction Hne].
    + intros e Hne. now contradiction Hne.
    + intros scores Hne. now contradiction Hne.
  - rewrite squad_agg_nonempty. split; [|split].
    + intros s. split.
      * destruct (compute (map fst (p :: item)) (map snd (p :: item))) as [scores|e];
          [|discriminate].
        intros Hget. split; [discriminate|]. now exists scores.
      * intros (_ & scores & -> & Hget). exact Hget.
    + intros e _ ->. reflexivity.
    + intros scores _ -> Hnot. cbn [bind]. now apply getitem_missing.
Qed.

Example squad_agg_missing_key :
  forall p, _squad_agg Z exact_match_only "f1" [p] = Raise (KeyError "f1").
Proof. reflexivity. Qed.

Example squad_agg_metric_failure :
  forall p, _squad_agg Z failing_metric "f1" [p] = Raise (ValueError "metric failed").
Proof. reflexivity. Qed.

Lemma processed_item (self : Task) (d : Doc) (continuation key : string)
    (item : Prediction * Reference) :
  (exists out, process_results self d [continuation] = Ok out /\ getitem out key = Ok item) ->
  item = ({| pred_id := qid d; prediction_text := continuation |},
          {| ref_id := qid d;
             answers := {| gold_text := [answer d]; answer_start := [(-1)%Z] |} |}).
Proof.
  intros (out & Hout & Hget). rewrite process_results_singleton in Hout.
  injection Hout as <-. cbn [getitem] in Hget.
  destruct ("exact_match" =? key); [now injection Hget|].
  destruct ("f1" =? key); [now injection Hget | discriminate].
Qed.

(** Aggregating what [process_results] returned for a run of records, one
    output each, hands the metric one prediction and one reference per
    record, in the order of the run, the i-th prediction and the i-th
    reference carrying the "qid" of the i-th record. *)
Theorem squad_agg_of_processed_results (score : Type)
    (compute : list Prediction -> list Reference -> result (list (string * score)))
    (self : Task) (key : string) (runs : list (Doc * string))
    (items : list (Prediction * Reference)) :
  runs <> [] ->
  Forall2 (fun run item =>
             exists out, process_results self (fst run) [snd run] = Ok out
                         /\ getitem out key = Ok item) runs items ->
  _squad_agg score compute key items
  = bind (compute
            (map (fun run => {| pred_id := qid (fst run); prediction_text := snd run |}) runs)
            (map (fun run => {| ref_id := qid (fst run);
                                answers := {| gold_text := [answer (fst run)];
                                              answer_start := [(-1)%Z] |} |}) runs))
         (fun scores => getitem scores key)
  /\ map pred_id (map fst items) = map qid (map fst runs)
  /\ map ref_id (map snd items) = map qid (map fst runs).
Proof.
  intros Hne Hall.
  assert (Hitems :
            items = map (fun run =>
                           ({| pred_id := qid (fst run); prediction_text := snd run |},
                            {| ref_id := qid (fst run);
                               answers := {| gold_text := [answer (fst run)];
                                             answer_start := [(-1)%Z] |} |})) runs).
  { clear Hne. induction Hall as [|run item runs items Hrun _ IH]; [reflexivity|].
    cbn [map]. rewrite (processed_item self (fst run) (snd run) key item Hrun).
    now rewrite IH. }
  subst items. destruct runs as [|run runs]; [now contradiction Hne|].
  split; [|split].
  - cbn [map]. rewrite squad_agg_nonempty. cbn [map fst snd]. rewrite !map_map. reflexivity.
  - rewrite !map_map. reflexivity.
  - rewrite !map_map. reflexivity.
Qed.

Lemma squad_agg_of_processed_results_witness :
  _squad_agg Z steady_metric "f1"
    [ ({| pred_id := "QA0"; prediction_text := "東京" |},
       {| ref_id := "QA0";
          answers := {| gold_text := ["東京"]; answer_start := [(-1)%Z] |} |});
      ({| pred_id := "QA4"; prediction_text := "京都" |},
       {| ref_id := "QA4";
          answers := {| gold_text := ["東京"]; answer_start := [(-1)%Z] |} |}) ]
  = bind (steady_metric
            (map (fun run => {| pred_id := qid (fst run); prediction_text := snd run |})
                 [(capital_of_japan "日本の首都は", "東京"); (two_documents, "京都")])
            (map (fun run => {| ref_id := qid (fst run);
                                answers := {| gold_text := [answer (fst run)];
                                              answer_start := [(-1)%Z] |} |})
                 [(capital_of_japan "日本の首都は", "東京"); (two_documents, "京都")]))
         (fun scores => getitem scores "f1").
Proof.
  apply (squad_agg_of_processed_results Z steady_metric
           (new RCQA no_tokenizer empty_dataset) "f1"
           [(capital_of_japan "日本の首都は", "東京"); (two_documents, "京都")]).
  - discriminate.
  - repeat constructor; eexists; split; reflexivity.
Defined.

(** Every metric name [process_results] emits is a name [aggregation] and
    [higher_is_better] declare, in the same order and with no other name;
    [higher_is_better] marks it [True], and [aggregation] binds it to
    [_squad_agg] fixed at that very name. *)
Theorem metric_names_agree (score : Type)
    (compute : list Prediction -> list Reference -> result (list (string * score)))
    (self : Task) (doc : Doc) (results : list string)
    (out : list (string * (Prediction * Reference))) :
  process_results self doc results = Ok out ->
  map fst out = map fst (aggregation score compute)
  /\ map fst out = map fst higher_is_better
  /\ forall name, In name (map fst out) ->
       getitem higher_is_better name = Ok true
       /\ exists agg, getitem (aggregation score compute) name = Ok agg
                      /\ forall item, agg item = _squad_agg score compute name item.
Proof.
  intros Hout.
  destruct results as [|continuation [|second rest]].
  - rewrite process_results_wrong_length in Hout by discriminate. discriminate Hout.
  - rewrite process_results_singleton in Hout. injection Hout as <-.
    split; [reflexivity | split; [reflexivity|]].
    intros name [<- | [<- | []]]; (split; [reflexivity | eexists; split; reflexivity]).
  - rewrite process_results_wrong_length in Hout by discriminate. discriminate Hout.
Qed.

Lemma metric_names_agree_witness :
  map fst (aggregation Z steady_metric) = ["exact_match"; "f1"]
  /\ map fst higher_is_better = ["exact_match"; "f1"].
Proof.
  destruct (metric_names_agree Z steady_metric (new RCQA no_tokenizer empty_dataset)
              (capital_of_japan "日本の首都は") ["東京"]
              [ ("exact_match",
                 ({| pred_id := "QA0"; prediction_text := "東京" |},
                  {| ref_id := "QA0";
                     answers := {| gold_text := ["東京"]; answer_start := [(-1)%Z] |} |}));
                ("f1",
                 ({| pred_id := "QA0"; prediction_text := "東京" |},
                  {| ref_id := "QA0";
                     answers := {| gold_text := ["東京"]; answer_start := [(-1)%Z] |} |})) ]
              eq_refl) as (Hagg & Hhigher & _).
  split; [symmetry; exact Hagg | symmetry; exact Hhigher].
Defined.

(** ** The task registry *)

Lemma getitem_setitem_same {V : Type} (d : list (string * V)) (key : string) (value : V) :
  getitem (setitem d key value) key = Ok value.
Proof.
  induction d as [|[k v] d IH]; cbn [setitem getitem].
  - now rewrite String.eqb_refl.
  - destruct (String.eqb_spec k key) as [->|Hne]; cbn [getitem].
    + now rewrite String.eqb_refl.
    + apply String.eqb_neq in Hne. now rewrite Hne.
Qed.

Lemma getitem_setitem_other {V : Type} (d : list (string * V)) (key other : string)
    (value : V) :
  key <> other -> getitem (setitem d key value) other = getitem d other.
Proof.
  intros Hne. induction d as [|[k v] d IH]; cbn [setitem getitem].
  - apply String.eqb_neq in Hne. now rewrite Hne.
  - destruct (String.eqb_spec k key) as [->|Hk]; cbn [getitem].
    + apply String.eqb_neq in Hne. now rewrite Hne.
    + now rewrite IH.
Qed.

(** [construct_tasks] registers the four classes in the order of
    [VERSIONS], each under its own name "rcqa-1.0-0.1" to "rcqa-1.0-0.4":
    the names differ, so no class replaces another, looking a name up
    returns its class, and any other name raises [KeyError]. *)
Theorem construct_tasks_registers_each_class :
  map snd construct_tasks = VERSIONS
  /\ map fst construct_tasks = ["rcqa-1.0-0.1"; "rcqa-1.0-0.2"; "rcqa-1.0-0.3"; "rcqa-1.0-0.4"]
  /\ (forall v,
        getitem construct_tasks ("rcqa-" ++ VERSION v ++ "-" ++ PROMPT_VERSION v) = Ok v)
  /\ (forall name v, getitem construct_tasks name = Ok v ->
        name = "rcqa-" ++ VERSION v ++ "-" ++ PROMPT_VERSION v)
  /\ (forall name,
        (forall v, name <> "rcqa-" ++ VERSION v ++ "-" ++ PROMPT_VERSION v) ->
        getitem construct_tasks name = Raise (KeyError name)).
Proof.
  split; [reflexivity | split; [reflexivity | split; [|split]]].
  - intros v. now destruct v.
  - intros name v. change construct_tasks with
      [ ("rcqa-1.0-0.1", RCQA); ("rcqa-1.0-0.2", RCQAWithFintanPrompt);
        ("rcqa-1.0-0.3", RCQAWithJAAlpacaPrompt);
        ("rcqa-1.0-0.4", RCQAWithRinnaInstructionSFT) ].
    cbn [getitem].
    repeat match goal with
           | |- context [String.eqb ?k name] =>
               destruct (String.eqb_spec k name) as [<-|_]; [now intros [= <-]|]
           end.
    discriminate.
  - intros name Hother. apply getitem_missing.
    change (map fst construct_tasks) with
      ["rcqa-1.0-0.1"; "rcqa-1.0-0.2"; "rcqa-1.0-0.3"; "rcqa-1.0-0.4"].
    intros [<- | [<- | [<- | [<- | []]]]].
    + now apply (Hother RCQA).
    + now apply (Hother RCQAWithFintanPrompt).
    + now apply (Hother RCQAWithJAAlpacaPrompt).
    + now apply (Hother RCQAWithRinnaInstructionSFT).
Qed.
